(** * AirQuality AI (src/app.py): the advisory engine and the prediction path

    A shallow embedding of [get_aqi_category], [get_recommendations],
    [load_model] and [main] of src/app.py, and the properties the
    specification states about them. *)

From Stdlib Require Import QArith Lqa Sorted.
From stdpp Require Import gmap strings list fin_maps.

Local Open Scope string_scope.

(** ** Python floats

    The predicted AQI is a [numpy.float64].  The code only ever compares it
    with integer constants, so a float is modelled by its numeric value: a
    finite float is the rational it denotes (every finite binary64 value is
    one, and comparing it with an [int] is exact), and the three special
    values are kept apart. *)
Module PyFloat.

Inductive t : Type :=
| Finite (q : Q)
| PosInf
| NegInf
| NaN.

Arguments Finite q%_Q.

(** Python's [x <= y]: false as soon as one side is NaN. *)
Definition le (x y : t) : bool :=
  match x, y with
  | NaN, _ | _, NaN => false
  | NegInf, _ => true
  | _, PosInf => true
  | Finite a, Finite b => Qle_bool a b
  | PosInf, _ => false
  | Finite _, NegInf => false
  end.

(** Python's [x > y]. *)
Definition gt (x y : t) : bool :=
  match x, y with
  | NaN, _ | _, NaN => false
  | NegInf, _ => false
  | _, PosInf => false
  | Finite a, Finite b => negb (Qle_bool a b)
  | PosInf, _ => true
  | Finite _, NegInf => true
  end.

(** Python's [x < y]. *)
Definition lt (x y : t) : bool :=
  match x, y with
  | NaN, _ | _, NaN => false
  | _, NegInf => false
  | PosInf, _ => false
  | Finite a, Finite b => negb (Qle_bool b a)
  | NegInf, _ => true
  | Finite _, PosInf => true
  end.

(** The same float: numerically equal, or both NaN. *)
Definition same (x y : t) : Prop :=
  match x, y with
  | Finite a, Finite b => (a == b)%Q
  | PosInf, PosInf | NegInf, NegInf | NaN, NaN => True
  | _, _ => False
  end.

Definition of_Z (z : Z) : t := Finite (inject_Z z).

End PyFloat.

Abbreviation pyfloat := PyFloat.t.
Abbreviation Finite := PyFloat.Finite.
Abbreviation PosInf := PyFloat.PosInf.
Abbreviation NegInf := PyFloat.NegInf.
Abbreviation NaN := PyFloat.NaN.

Declare Scope pyfloat_scope.
Delimit Scope pyfloat_scope with py.
Infix "<=?" := PyFloat.le : pyfloat_scope.
Infix ">?" := PyFloat.gt : pyfloat_scope.
Infix "<?" := PyFloat.lt : pyfloat_scope.

(** An integer literal of the source, as the float it is compared with. *)
Definition lit (z : Z) : pyfloat := PyFloat.of_Z z.

(** ** The advisory engine *)

(** [get_aqi_category] (app.py, lines 62-74): the returned tuple is
    (label, CSS class, description). *)
Definition get_aqi_category (aqi_value : pyfloat) : string * string * string :=
  if (aqi_value <=? lit 50)%py then
    ("Good", "good", "😊 Air quality is satisfactory")
  else if (aqi_value <=? lit 100)%py then
    ("Moderate", "moderate", "😐 Air quality is acceptable")
  else if (aqi_value <=? lit 150)%py then
    ("Unhealthy for Sensitive Groups", "unhealthy-sensitive",
     "😷 Sensitive groups may be affected")
  else if (aqi_value <=? lit 200)%py then
    ("Unhealthy", "unhealthy", "🤒 Everyone may be affected")
  else if (aqi_value <=? lit 300)%py then
    ("Very Unhealthy", "very-unhealthy", "🚨 Health alert")
  else
    ("Hazardous", "hazardous", "💀 Health warning").

(** A Python dictionary literal: the pairs are stored left to right, a
    later pair replacing an earlier one with the same key. *)
Definition dict_literal {V} (items : list (string * V)) : gmap string V :=
  foldl (fun d kv => <[kv.1 := kv.2]> d) ∅ items.

(** The dictionary of [get_recommendations] (lines 78-109). *)
Definition recommendations : gmap string (list string) :=
  dict_literal [
    ("Good", [
      "✅ Perfect for outdoor activities and exercise";
      "✅ No restrictions needed";
      "✅ Great day for children to play outside" ]);
    ("Moderate", [
      "⚠️ Generally acceptable for most people";
      "⚠️ Sensitive individuals should reduce prolonged exertion";
      "💧 Stay hydrated if exercising outdoors" ]);
    ("Unhealthy for Sensitive Groups", [
      "🚫 Sensitive groups should reduce outdoor activities";
      "👵 Older adults and children should limit exertion";
      "🏠 Consider moving activities indoors" ]);
    ("Unhealthy", [
      "🚨 Everyone should reduce outdoor activities";
      "💪 Avoid strenuous exercise outdoors";
      "😷 Wear masks if going outside" ]);
    ("Very Unhealthy", [
      "🆘 Avoid all outdoor activities";
      "🏠 Stay indoors with windows closed";
      "💨 Use air purifiers" ]);
    ("Hazardous", [
      "🔥 HEALTH EMERGENCY - Stay indoors";
      "🆘 Cancel all outdoor activities";
      "🏥 Seek medical help if symptoms appear" ])
  ].

(** [get_recommendations] (lines 77-110): [recommendations.get(category, [])]. *)
Definition get_recommendations (category : string) : list string :=
  default [] (recommendations !! category).

(** The label, the CSS class and the description of a returned tuple. *)
Definition label_of (r : string * string * string) : string := r.1.1.
Definition css_class_of (r : string * string * string) : string := r.1.2.
Definition description_of (r : string * string * string) : string := r.2.

(** ** The specification's data model (spec.md, section 3)

    These definitions follow the specification's words; the theorems below
    compare them with the code. *)

Inductive AqiCategory : Type :=
| Good
| Moderate
| UnhealthyForSensitiveGroups
| Unhealthy
| VeryUnhealthy
| Hazardous.

#[global] Instance AqiCategory_eq_dec : EqDecision AqiCategory.
Proof. solve_decision. Defined.

Definition all_categories : list AqiCategory :=
  [Good; Moderate; UnhealthyForSensitiveGroups; Unhealthy; VeryUnhealthy;
   Hazardous].

Definition label (c : AqiCategory) : string :=
  match c with
  | Good => "Good"
  | Moderate => "Moderate"
  | UnhealthyForSensitiveGroups => "Unhealthy for Sensitive Groups"
  | Unhealthy => "Unhealthy"
  | VeryUnhealthy => "Very Unhealthy"
  | Hazardous => "Hazardous"
  end.

(** The category a label names, if any. *)
Definition category_of_label (s : string) : option AqiCategory :=
  List.find (fun c => String.eqb (label c) s) all_categories.

(** Good < Moderate < Unhealthy for Sensitive Groups < Unhealthy
    < Very Unhealthy < Hazardous. *)
Definition severity (c : AqiCategory) : nat :=
  match c with
  | Good => 0
  | Moderate => 1
  | UnhealthyForSensitiveGroups => 2
  | Unhealthy => 3
  | VeryUnhealthy => 4
  | Hazardous => 5
  end.

(** The interval of each category: Good [0,50], Moderate (50,100],
    Unhealthy-for-Sensitive-Groups (100,150], Unhealthy (150,200],
    Very-Unhealthy (200,300], Hazardous (300,oo). *)
Definition in_interval (c : AqiCategory) (v : Q) : Prop :=
  match c with
  | Good => (0 <= v /\ v <= 50)%Q
  | Moderate => (50 < v /\ v <= 100)%Q
  | UnhealthyForSensitiveGroups => (100 < v /\ v <= 150)%Q
  | Unhealthy => (150 < v /\ v <= 200)%Q
  | VeryUnhealthy => (200 < v /\ v <= 300)%Q
  | Hazardous => (300 < v)%Q
  end.

Arguments in_interval c v%_Q.

(** The upper bounds, in the order the specification evaluates them. *)
Definition upper_bounds : list (Z * AqiCategory) :=
  [(50, Good); (100, Moderate); (150, UnhealthyForSensitiveGroups);
   (200, Unhealthy); (300, VeryUnhealthy)]%Z.

(** The specification's [classify]: the first category whose upper bound
    is not exceeded, Hazardous when every bound is. *)
Definition classify_spec (v : pyfloat) : AqiCategory :=
  match List.find (fun b => (v <=? lit b.1)%py) upper_bounds with
  | Some b => b.2
  | None => Hazardous
  end.

(** The six labels, as the claim about unknown categories lists them. *)
Definition known_labels : list string :=
  ["Good"; "Moderate"; "Unhealthy for Sensitive Groups"; "Unhealthy";
   "Very Unhealthy"; "Hazardous"].

(** ** The prediction path: data *)

(** A raised Python exception, as far as the program looks at it: the text
    [str(e)] gives.  These are the exceptions of class [Exception], which
    is what opening a file, unpickling and the artifacts raise;
    [KeyboardInterrupt] and [SystemExit], which [except Exception] lets
    through, are signals to the interpreter and are not modelled. *)
Inductive exn : Type := Exception (str : string).

Definition exn_str (e : exn) : string := let 'Exception s := e in s.

(** A two-dimensional [numpy] array, row by row. *)
Definition ndarray : Type := list (list pyfloat).

(** The two pickled artifacts.  They are opaque to the program, which only
    calls [scaler.transform] and [model.predict]; either call returns or
    raises. *)
Record Scaler : Type := { transform : ndarray -> exn + ndarray }.
Record Model : Type := { predict : ndarray -> exn + list pyfloat }.

(** What [open(path, 'rb')] followed by [pickle.load] gives for the two
    files [load_model] reads: the object, or the exception raised when the
    file is absent or unreadable. *)
Record filesystem : Type := {
  model_pkl : exn + Model;
  scaler_pkl : exn + Scaler
}.

(** The module-level variables [model] and [scaler] (line 59). *)
Record globals : Type := {
  model : option Model;
  scaler : option Scaler
}.

(** What the form widgets of [main] return (lines 143-153). *)
Record form : Type := {
  pm25 : pyfloat;
  pm10 : pyfloat;
  no2 : pyfloat;
  co : pyfloat;
  o3 : pyfloat;
  submitted : bool
}.

(** The pieces of an f-string: literal text, [{x}] for a string, [{x}] for
    a float and [{x:.1f}]. *)
Inductive fragment : Type :=
| Text (s : string)
| Str (s : string)
| Num (x : pyfloat)
| Num1 (x : pyfloat).

Definition message : Type := list fragment.

(** The Streamlit elements the program shows.  Static markup is kept as a
    tag, computed content as arguments. *)
Inductive element : Type :=
| st_header                       (* line 115 *)
| st_sidebar                      (* lines 118-130 *)
| st_subheader (s : string)
| st_form                         (* lines 139-153 *)
| st_error (m : message)
| st_warning (m : message)
| st_success (m : message)
| st_result (css_class : string) (prediction : pyfloat)
            (category description : string)      (* lines 186-192 *)
| st_write (m : message)
| st_metric (name : string) (m : message)
| st_expander (title : string)
| st_about.                       (* lines 215-233 *)

(** What a run does that can be observed: elements shown, files opened,
    and the calls into the artifacts. *)
Inductive effect : Type :=
| Show (e : element)
| Open (path : string)
| Call_transform (x : ndarray)
| Call_predict (x : ndarray).

(** ** The prediction path: effects

    A computation reads and writes the module's global variables, appends
    to the trace of effects, and returns or raises. *)
Definition M (A : Type) : Type := globals -> list effect * globals * (exn + A).

#[global] Instance M_ret : MRet M := fun A a g => ([], g, inr a).

#[global] Instance M_bind : MBind M := fun A B k m g =>
  match m g with
  | (t, g', inl e) => (t, g', inl e)
  | (t, g', inr a) => let '(t', g'', r) := k a g' in ((t ++ t')%list, g'', r)
  end.

Definition raise {A} (e : exn) : M A := fun g => ([], g, inl e).

Definition emit (e : effect) : M unit := fun g => ([e], g, inr tt).

Definition show (e : element) : M unit := emit (Show e).

(** [try: body  except ...: handler]. *)
Definition try_except {A} (body : M A) (handler : exn -> M A) : M A := fun g =>
  match body g with
  | (t, g', inl e) => let '(t', g'', r) := handler e g' in ((t ++ t')%list, g'', r)
  | (t, g', inr a) => (t, g', inr a)
  end.

Definition read_model : M (option Model) := fun g => ([], g, inr (model g)).
Definition read_scaler : M (option Scaler) := fun g => ([], g, inr (scaler g)).

(** [model, scaler = ...] at module level. *)
Definition assign_globals (r : option Model * option Scaler) : M unit :=
  fun _ => ([], {| model := r.1; scaler := r.2 |}, inr tt).

(** The outcome of a call that returns or raises. *)
Definition outcome {A} (r : exn + A) : M A :=
  match r with
  | inl e => raise e
  | inr a => mret a
  end.

Fixpoint for_each {A} (xs : list A) (body : A -> M unit) : M unit :=
  match xs with
  | [] => mret tt
  | x :: rest => body x ;; for_each rest body
  end.

(** The trace, the final globals and the result of a run. *)
Definition trace_of {A} (r : list effect * globals * (exn + A)) : list effect := r.1.1.
Definition globals_of {A} (r : list effect * globals * (exn + A)) : globals := r.1.2.
Definition result_of {A} (r : list effect * globals * (exn + A)) : exn + A := r.2.

(** A run crashes when an exception leaves it. *)
Definition crashes {A} (r : list effect * globals * (exn + A)) : bool :=
  match result_of r with inl _ => true | inr _ => false end.

Definition is_call (e : effect) : bool :=
  match e with
  | Call_transform _ | Call_predict _ => true
  | _ => false
  end.


(** ** The prediction path: the program *)

(** [with open(path, 'rb') as f: obj = pickle.load(f)]. *)
Definition unpickle {A} (path : string) (content : exn + A) : M A :=
  emit (Open path) ;; outcome content.

(** The message of [load_model] (line 56). *)
Definition model_files_not_found : message :=
  [Text "❌ Model files not found! Please upload model.pkl and scaler.pkl"].

(** [load_model] (lines 47-57).  The bare [except:] catches whatever the
    two loads raise.  [st.cache_resource] keeps the returned pair for the
    reruns of the script; it does not change what the first call returns. *)
Definition load_model (fs : filesystem) : M (option Model * option Scaler) :=
  try_except
    (model ← unpickle "model.pkl" (model_pkl fs);
     scaler ← unpickle "scaler.pkl" (scaler_pkl fs);
     mret (Some model, Some scaler))
    (fun _ =>
       show (st_error model_files_not_found) ;;
       mret (None, None)).

Definition is_None {A} (x : option A) : bool :=
  match x with None => true | Some _ => false end.

Definition is_not_None {A} (x : option A) : bool := negb (is_None x).

(** A method call on [None] raises [AttributeError]. *)
Definition none_has_no_attribute (name : string) : exn :=
  Exception ("'NoneType' object has no attribute '" ++ name ++ "'").

(** [scaler.transform(input_data)]. *)
Definition call_transform (s : option Scaler) (x : ndarray) : M ndarray :=
  match s with
  | None => raise (none_has_no_attribute "transform")
  | Some sc => emit (Call_transform x) ;; outcome (transform sc x)
  end.

(** [model.predict(input_scaled)]. *)
Definition call_predict (m : option Model) (x : ndarray) : M (list pyfloat) :=
  match m with
  | None => raise (none_has_no_attribute "predict")
  | Some md => emit (Call_predict x) ;; outcome (predict md x)
  end.

(** [a[0]] on a one-dimensional array. *)
Definition getitem0 (a : list pyfloat) : M pyfloat :=
  match a with
  | [] => raise (Exception "index 0 is out of bounds for axis 0 with size 0")
  | x :: _ => mret x
  end.

(** [np.array([[pm25, pm10, no2, co, o3]])] (line 177). *)
Definition input_data (f : form) : ndarray :=
  [[pm25 f; pm10 f; no2 f; co f; o3 f]].

(** Scoring: the first statements of the [try] of [main] (lines 177-179). *)
Definition main_scoring (f : form) : M pyfloat :=
  s ← read_scaler;
  input_scaled ← call_transform s (input_data f);
  m ← read_model;
  predictions ← call_predict m input_scaled;
  getitem0 predictions.

(** The [st.write] of one recommendation (line 197). *)
Definition bullet (rec : string) : element := st_write [Text "• "; Str rec].

(** The rest of the [try] of [main] (lines 182-206). *)
Definition main_render (f : form) (prediction : pyfloat) : M unit :=
  let '(category, css_class, description) := get_aqi_category prediction in
  let recommendations := get_recommendations category in
  show (st_result css_class prediction category description) ;;
  show (st_subheader "💡 Health Recommendations") ;;
  for_each recommendations (fun rec => show (bullet rec)) ;;
  show (st_expander "📋 Input Summary") ;;
  show (st_metric "PM2.5" [Num (pm25 f); Text " µg/m³"]) ;;
  show (st_metric "PM10" [Num (pm10 f); Text " µg/m³"]) ;;
  show (st_metric "NO₂" [Num (no2 f); Text " µg/m³"]) ;;
  show (st_metric "CO" [Num (co f); Text " mg/m³"]) ;;
  show (st_metric "O₃" [Num (o3 f); Text " µg/m³"]).

(** The body of the [try] of [main] (lines 176-206). *)
Definition main_try (f : form) : M unit :=
  prediction ← main_scoring f;
  main_render f prediction.

(** The [except Exception as e] of [main] (lines 208-209). *)
Definition prediction_error (e : exn) : message :=
  [Text "Prediction error: "; Str (exn_str e)].

Definition main_except (e : exn) : M unit :=
  show (st_error (prediction_error e)).

Definition model_not_loaded : message :=
  [Text "Model not loaded. Please check if model files are uploaded."].

(** Header, sidebar and form of [main] (lines 114-153). *)
Definition main_inputs : M unit :=
  show st_header ;;
  show st_sidebar ;;
  show (st_subheader "📊 Enter Pollutant Levels") ;;
  show st_form.

(** The analysis column of [main] (lines 155-171). *)
Definition main_analysis (f : form) : M unit :=
  show (st_subheader "🎯 Real-time Analysis") ;;
  (if (pm25 f >? lit 35)%py then
     show (st_error [Text "PM2.5: "; Num (pm25 f); Text " µg/m³ (High)"])
   else if (pm25 f >? lit 12)%py then
     show (st_warning [Text "PM2.5: "; Num (pm25 f); Text " µg/m³ (Moderate)"])
   else
     show (st_success [Text "PM2.5: "; Num (pm25 f); Text " µg/m³ (Good)"])) ;;
  (if (pm10 f >? lit 100)%py then
     show (st_error [Text "PM10: "; Num (pm10 f); Text " µg/m³ (High)"])
   else if (pm10 f >? lit 45)%py then
     show (st_warning [Text "PM10: "; Num (pm10 f); Text " µg/m³ (Moderate)"])
   else
     show (st_success [Text "PM10: "; Num (pm10 f); Text " µg/m³ (Good)"])).

(** The prediction of [main] (lines 174-212). *)
Definition main_prediction (f : form) : M unit :=
  m ← read_model;
  if submitted f && is_not_None m then
    try_except (main_try f) main_except
  else if submitted f && is_None m then
    show (st_error model_not_loaded)
  else
    mret tt.

(** [main] (lines 113-233), on what the form widgets returned. *)
Definition main (f : form) : M unit :=
  main_inputs ;;
  main_analysis f ;;
  main_prediction f ;;
  show st_about.

(** The script: line 59, then lines 235-236.  The page configuration and
    the style sheet of lines 8-44 are static and left out. *)
Definition script (fs : filesystem) (f : form) : M unit :=
  r ← load_model fs;
  assign_globals r ;;
  main f.

(** Successive submissions served by one process: each run of [main]
    starts from the globals the run before it left. *)
Fixpoint serve (fs : list form) (g : globals)
  : list (list effect * (exn + unit)) * globals :=
  match fs with
  | [] => ([], g)
  | f :: rest =>
      let '(t, g', r) := main f g in
      let '(outs, g'') := serve rest g' in
      ((t, r) :: outs, g'')
  end.

(** Before anything is loaded. *)
Definition unset : globals := {| model := None; scaler := None |}.

(** ** Observations on traces *)

Definition is_transform_call (e : effect) : bool :=
  match e with Call_transform _ => true | _ => false end.

Definition is_predict_call (e : effect) : bool :=
  match e with Call_predict _ => true | _ => false end.

(** How often a trace calls [scaler.transform] and [model.predict]. *)
Definition count_transform (t : list effect) : nat :=
  length (List.filter is_transform_call t).

Definition count_predict (t : list effect) : nat :=
  length (List.filter is_predict_call t).

(** The advisory a trace shows: the result box and the recommendations. *)
Definition is_advisory (e : effect) : bool :=
  match e with
  | Show (st_result _ _ _ _) | Show (st_write _) => true
  | _ => false
  end.

Definition advisory_shown (t : list effect) : list effect :=
  List.filter is_advisory t.

(** The advisory of a prediction, from the two functions alone. *)
Definition advisory (prediction : pyfloat) : list effect :=
  let r := get_aqi_category prediction in
  Show (st_result (css_class_of r) prediction (label_of r) (description_of r))
  :: map (fun rec => Show (bullet rec)) (get_recommendations (label_of r)).

(** A file that is absent or unreadable. *)
Definition unreadable {A} (content : exn + A) : bool :=
  match content with inl _ => true | inr _ => false end.

(** A string without a line break. *)
Definition one_line (s : string) : bool :=
  forallb (fun a => negb (Ascii.eqb a (Ascii.ascii_of_nat 10))) (Strings.String.list_ascii_of_string s).

(** ** Computations that return and leave the globals alone *)

Definition steady (m : M unit) : Prop :=
  forall g, m g = (trace_of (m g), g, inr tt).

(** The traces scoring can leave: it stops before, between or after the
    two calls, and makes neither twice. *)
Inductive scoring_trace (f : form) : list effect -> Prop :=
| scoring_no_call : scoring_trace f []
| scoring_transform_only : scoring_trace f [Call_transform (input_data f)]
| scoring_both (y : ndarray) :
    scoring_trace f [Call_transform (input_data f); Call_predict y].

(** ** The style sheet

    The rules of the [<style>] element the script writes first (lines
    16-44): each selector with its declarations, in the order of the
    source. *)
Definition style_sheet : list (string * list (string * string)) :=
  [ (".main-header",
      [("font-size", "3rem"); ("color", "#2563eb"); ("text-align", "center");
       ("margin-bottom", "2rem")]);
    (".metric-card",
      [("background", "white"); ("padding", "1.5rem"); ("border-radius", "10px");
       ("box-shadow", "0 4px 6px rgba(0, 0, 0, 0.1)"); ("margin", "1rem 0")]);
    (".prediction-result",
      [("text-align", "center"); ("padding", "2rem"); ("border-radius", "15px");
       ("margin", "2rem 0")]);
    (".good", [("background", "#d1fae5"); ("color", "#065f46")]);
    (".moderate", [("background", "#fef3c7"); ("color", "#92400e")]);
    (".unhealthy-sensitive", [("background", "#fed7aa"); ("color", "#9a3412")]);
    (".unhealthy", [("background", "#fecaca"); ("color", "#991b1b")]);
    (".very-unhealthy", [("background", "#e9d5ff"); ("color", "#6b21a8")]);
    (".hazardous", [("background", "#fca5a5"); ("color", "#7f1d1d")]) ].

(** The declarations of the first rule whose selector is the class. *)
Definition rule_of (class : string) : option (list (string * string)) :=
  snd <$> List.find (fun r => String.eqb r.1 ("." ++ class)) style_sheet.

(** The value a list of declarations gives a property. *)
Definition declared (property : string) (decls : list (string * string))
  : option string :=
  snd <$> List.find (fun d => String.eqb d.1 property) decls.

(** ** Errors on traces *)

Definition is_error (e : effect) : bool :=
  match e with
  | Show (st_error _) => true
  | _ => false
  end.

Definition errors_shown (t : list effect) : list effect :=
  List.filter is_error t.

(** The recommendations a trace shows, in order. *)
Definition bullets_shown (t : list effect) : list string :=
  omap (fun e => match e with
                 | Show (st_write [Text _; Str rec]) => Some rec
                 | _ => None
                 end) t.

(** ** Sample artifacts, files and forms *)

Definition identity_scaler : Scaler := {| transform := fun x => inr x |}.

Definition constant_model (p : pyfloat) : Model :=
  {| predict := fun _ => inr [p] |}.

Definition failing_model : Model :=
  {| predict := fun _ => inl (Exception "Input contains NaN.") |}.

(** The default values of the widgets, submitted. *)
Definition default_form : form :=
  {| pm25 := Finite 25; pm10 := Finite 50; no2 := Finite 20; co := Finite 1;
     o3 := Finite 60; submitted := true |}.

Definition loaded (m : Model) : globals :=
  {| model := Some m; scaler := Some identity_scaler |}.

Definition no_files : filesystem :=
  {| model_pkl := inl (Exception "[Errno 2] No such file or directory: 'model.pkl'");
     scaler_pkl := inl (Exception "[Errno 2] No such file or directory: 'scaler.pkl'") |}.

(** ** Proof tools *)

(** Decides every test of [get_aqi_category] on [v]. *)
Ltac run_tests v :=
  destruct (v <=? lit 50)%py eqn:?;
  [| destruct (v <=? lit 100)%py eqn:?;
     [| destruct (v <=? lit 150)%py eqn:?;
        [| destruct (v <=? lit 200)%py eqn:?;
           [| destruct (v <=? lit 300)%py eqn:? ]]]].

(** Unfolds the combinators of [M] and runs what is decided. *)
Ltac run_M :=
  unfold outcome, read_scaler, read_model, raise, show, emit, getitem0,
    mbind, mret, M_bind, M_ret;
  cbn [fst snd app].

(** * Properties *)

(** ** Comparisons of floats *)

Lemma le_lit_true (q : Q) (z : Z) :
  (Finite q <=? lit z)%py = true <-> (q <= inject_Z z)%Q.
Proof. apply Qle_bool_iff. Qed.

Lemma le_lit_false (q : Q) (z : Z) :
  (Finite q <=? lit z)%py = false <-> (inject_Z z < q)%Q.
Proof.
  unfold lit, PyFloat.of_Z, PyFloat.le.
  destruct (Qle_bool q (inject_Z z)) eqn:E.
  - apply Qle_bool_iff in E. split; [discriminate | intros H].
    exfalso. apply (Qlt_not_le _ _ H E).
  - split; [intros _ | reflexivity].
    apply Qnot_le_lt. intros H. apply Qle_bool_iff in H. congruence.
Qed.

Lemma le_trans_lit (v1 v2 : pyfloat) (z : Z) :
  (v1 <=? v2)%py = true -> (v2 <=? lit z)%py = true -> (v1 <=? lit z)%py = true.
Proof.
  destruct v1 as [a| | |], v2 as [b| | |]; cbn; try discriminate; try reflexivity.
  rewrite !Qle_bool_iff. apply Qle_trans.
Qed.

Lemma gt_lit_not_le (v : pyfloat) (z : Z) :
  (v >? lit z)%py = true -> (v <=? lit z)%py = false.
Proof.
  destruct v as [q| | |]; cbn; try discriminate; try reflexivity.
  destruct (Qle_bool q (inject_Z z)); [discriminate | reflexivity].
Qed.

Lemma not_le_lit (v : pyfloat) (z : Z) :
  (v <=? lit z)%py = false -> (v >? lit z)%py = true \/ v = NaN.
Proof.
  destruct v as [q| | |]; cbn; try discriminate; auto.
  destruct (Qle_bool q (inject_Z z)); [discriminate | auto].
Qed.

Lemma lt_lit_le (v : pyfloat) (z1 z2 : Z) :
  (z1 <= z2)%Z -> (v <? lit z1)%py = true -> (v <=? lit z2)%py = true.
Proof.
  intros Hz. destruct v as [q| | |]; cbn; try discriminate; try reflexivity.
  destruct (Qle_bool (inject_Z z1) q) eqn:E; [discriminate | intros _].
  apply Qle_bool_iff. apply Qle_trans with (inject_Z z1).
  - apply Qlt_le_weak, Qnot_le_lt. intros H. apply Qle_bool_iff in H. congruence.
  - rewrite <- Zle_Qle. exact Hz.
Qed.

(** ** The five tests of [get_aqi_category] *)

(** Turns the tests on a finite value into inequalities between rationals. *)
Ltac tests_to_Q :=
  repeat match goal with
  | H : (Finite _ <=? lit _)%py = true |- _ => apply le_lit_true in H
  | H : (Finite _ <=? lit _)%py = false |- _ => apply le_lit_false in H
  end;
  unfold inject_Z in *.

Lemma category_of_label_label (c : AqiCategory) :
  category_of_label (label c) = Some c.
Proof. destruct c; reflexivity. Qed.

(** The code and the specification's [classify] agree on every float. *)
Lemma get_aqi_category_classify_spec (v : pyfloat) :
  label_of (get_aqi_category v) = label (classify_spec v).
Proof.
  unfold get_aqi_category, classify_spec, upper_bounds. cbn [List.find fst snd].
  run_tests v; reflexivity.
Qed.

(** A finite value lying in the interval of a category gets its label. *)
Lemma get_aqi_category_in_interval (c : AqiCategory) (q : Q) :
  in_interval c q -> label_of (get_aqi_category (Finite q)) = label c.
Proof.
  intros H. unfold get_aqi_category.
  run_tests (Finite q); tests_to_Q; destruct c; cbn in H; try reflexivity;
    exfalso; lra.
Qed.

Lemma in_interval_unique (c c' : AqiCategory) (q : Q) :
  in_interval c q -> in_interval c' q -> c' = c.
Proof.
  destruct c, c'; cbn; intros H H'; try reflexivity; exfalso; lra.
Qed.

Lemma in_interval_exists (q : Q) :
  (0 <= q)%Q -> exists c, in_interval c q.
Proof.
  intros H0.
  destruct (Qlt_le_dec 50 q); [| exists Good; cbn; lra].
  destruct (Qlt_le_dec 100 q); [| exists Moderate; cbn; lra].
  destruct (Qlt_le_dec 150 q); [| exists UnhealthyForSensitiveGroups; cbn; lra].
  destruct (Qlt_le_dec 200 q); [| exists Unhealthy; cbn; lra].
  destruct (Qlt_le_dec 300 q); [| exists VeryUnhealthy; cbn; lra].
  exists Hazardous; cbn; lra.
Qed.

Lemma classify_spec_monotone (v1 v2 : pyfloat) :
  (v1 <=? v2)%py = true -> severity (classify_spec v1) <= severity (classify_spec v2).
Proof.
  intros Hle.
  pose proof (le_trans_lit v1 v2 50 Hle) as H50.
  pose proof (le_trans_lit v1 v2 100 Hle) as H100.
  pose proof (le_trans_lit v1 v2 150 Hle) as H150.
  pose proof (le_trans_lit v1 v2 200 Hle) as H200.
  pose proof (le_trans_lit v1 v2 300 Hle) as H300.
  unfold classify_spec, upper_bounds. cbn [List.find fst snd].
  run_tests v2;
    repeat match goal with
    | H : ?a = true -> _, E : ?a = true |- _ => specialize (H E)
    end;
    run_tests v1; cbn; try lia; congruence.
Qed.

(** Above 300 every test fails. *)
Lemma get_aqi_category_above_300 (v : pyfloat) :
  (v >? lit 300)%py = true -> label_of (get_aqi_category v) = "Hazardous".
Proof.
  intros Hgt.
  pose proof (gt_lit_not_le v 300 Hgt) as H300.
  unfold get_aqi_category.
  run_tests v; try reflexivity; exfalso;
    match goal with
    | E : (v <=? lit ?z)%py = true |- _ =>
        assert ((v <=? lit 300)%py = true)
          by (destruct v as [q| | |]; cbn in *; try discriminate; try reflexivity;
              apply Qle_bool_iff; apply Qle_bool_iff in E;
              unfold inject_Z in *; lra);
        congruence
    end.
Qed.

(** ** The classification *)

(** C1. Every AQI value in [0,50] is classified Good, and each of the
    boundary values 50, 100, 150, 200, 300 falls in the lower of its two
    adjacent categories: the upper bound of every interval is closed. *)
Theorem get_aqi_category_closed_upper_bounds :
  (forall q : Q, (0 <= q)%Q -> (q <= 50)%Q ->
     label_of (get_aqi_category (Finite q)) = "Good") /\
  label_of (get_aqi_category (lit 50)) = "Good" /\
  label_of (get_aqi_category (lit 100)) = "Moderate" /\
  label_of (get_aqi_category (lit 150)) = "Unhealthy for Sensitive Groups" /\
  label_of (get_aqi_category (lit 200)) = "Unhealthy" /\
  label_of (get_aqi_category (lit 300)) = "Very Unhealthy".
Proof.
  split; [| repeat split; reflexivity].
  intros q H0 H50. apply (get_aqi_category_in_interval Good). cbn. lra.
Qed.

Lemma get_aqi_category_closed_upper_bounds_witness :
  label_of (get_aqi_category (Finite 25)) = "Good".
Proof.
  apply (proj1 get_aqi_category_closed_upper_bounds 25%Q);
    unfold Qle; simpl; lia.
Defined.

(** C2. The bounds 50, 100, 150, 200, 300 are tried in ascending order and
    the first one the input does not exceed decides the category; every
    value above 300 is Hazardous.  In particular 50.1 is Moderate and 301
    is Hazardous. *)
Theorem get_aqi_category_first_bound_not_exceeded :
  (forall v : pyfloat, label_of (get_aqi_category v) = label (classify_spec v)) /\
  StronglySorted Z.lt (map fst upper_bounds) /\
  (forall v : pyfloat, (v >? lit 300)%py = true ->
     label_of (get_aqi_category v) = "Hazardous") /\
  label_of (get_aqi_category (Finite 50.1)) = "Moderate" /\
  label_of (get_aqi_category (lit 301)) = "Hazardous".
Proof.
  split; [exact get_aqi_category_classify_spec |].
  split; [repeat constructor |].
  split; [| split; reflexivity].
  exact get_aqi_category_above_300.
Qed.

Lemma get_aqi_category_first_bound_not_exceeded_witness :
  label_of (get_aqi_category (Finite 1000)) = "Hazardous".
Proof.
  apply (proj1 (proj2 (proj2 get_aqi_category_first_bound_not_exceeded))).
  reflexivity.
Defined.

(** C3. The six intervals partition the non-negative values: a finite
    non-negative AQI value lies in exactly one of them, and
    [get_aqi_category] returns the label of that one. *)
Theorem intervals_partition_nonnegative (q : Q) :
  (0 <= q)%Q ->
  exists c : AqiCategory,
    in_interval c q /\
    (forall c' : AqiCategory, in_interval c' q -> c' = c) /\
    label_of (get_aqi_category (Finite q)) = label c.
Proof.
  intros H0. destruct (in_interval_exists q H0) as [c Hc].
  exists c. split; [exact Hc |]. split.
  - intros c' Hc'. exact (in_interval_unique c c' q Hc Hc').
  - exact (get_aqi_category_in_interval c q Hc).
Qed.

Lemma intervals_partition_nonnegative_witness :
  exists c : AqiCategory,
    in_interval c 120 /\
    (forall c' : AqiCategory, in_interval c' 120 -> c' = c) /\
    label_of (get_aqi_category (Finite 120)) = label c.
Proof.
  apply (intervals_partition_nonnegative 120%Q). unfold Qle; simpl; lia.
Defined.

(** C8, as the claim states it, fails: a negative AQI passes the first
    test and is classified Good. *)
Lemma negative_aqi_not_hazardous :
  (lit (-1) <? lit 0)%py = true /\
  label_of (get_aqi_category (lit (-1))) = "Good" /\
  label_of (get_aqi_category (lit (-1))) <> "Hazardous".
Proof. repeat split. discriminate. Qed.

(** C8, amended. The value falls through to Hazardous exactly when none of
    the five tests matches, that is when it is above 300 or not a number; a
    negative value is matched by the first test and classified Good. *)
Theorem get_aqi_category_fallthrough :
  (forall v : pyfloat,
     label_of (get_aqi_category v) = "Hazardous" <->
     (v <=? lit 50)%py = false /\ (v <=? lit 100)%py = false /\
     (v <=? lit 150)%py = false /\ (v <=? lit 200)%py = false /\
     (v <=? lit 300)%py = false) /\
  (forall v : pyfloat,
     label_of (get_aqi_category v) = "Hazardous" <->
     (v >? lit 300)%py = true \/ v = NaN) /\
  (forall v : pyfloat, (v <? lit 0)%py = true ->
     label_of (get_aqi_category v) = "Good").
Proof.
  split; [| split].
  - intros v. unfold get_aqi_category.
    run_tests v; cbn; (split; [try discriminate; auto | intros H; try reflexivity]);
      exfalso; destruct H as (?&?&?&?&?); congruence.
  - intros v. split.
    + unfold get_aqi_category. run_tests v; cbn; try discriminate.
      intros _. apply not_le_lit. assumption.
    + intros [Hgt | ->]; [| reflexivity].
      exact (get_aqi_category_above_300 v Hgt).
  - intros v Hlt. unfold get_aqi_category.
    rewrite (lt_lit_le v 0 50); [reflexivity | lia | exact Hlt].
Qed.

Lemma get_aqi_category_fallthrough_witness :
  label_of (get_aqi_category (Finite (-3.5))) = "Good".
Proof.
  apply (proj2 (proj2 get_aqi_category_fallthrough)). reflexivity.
Defined.

(** C10. [get_aqi_category] is monotone in severity: when [v1 <= v2], the
    category of [v1] is at most as severe as the category of [v2]. *)
Theorem get_aqi_category_monotone (v1 v2 : pyfloat) :
  (v1 <=? v2)%py = true ->
  exists c1 c2 : AqiCategory,
    category_of_label (label_of (get_aqi_category v1)) = Some c1 /\
    category_of_label (label_of (get_aqi_category v2)) = Some c2 /\
    severity c1 <= severity c2.
Proof.
  intros Hle. exists (classify_spec v1), (classify_spec v2).
  rewrite !get_aqi_category_classify_spec, !category_of_label_label.
  repeat split. exact (classify_spec_monotone v1 v2 Hle).
Qed.

Lemma get_aqi_category_monotone_witness :
  exists c1 c2 : AqiCategory,
    category_of_label (label_of (get_aqi_category (Finite 75))) = Some c1 /\
    category_of_label (label_of (get_aqi_category (Finite 250.5))) = Some c2 /\
    severity c1 <= severity c2.
Proof.
  apply (get_aqi_category_monotone (Finite 75) (Finite 250.5)). reflexivity.
Defined.

(** ** The recommendations *)

Lemma get_recommendations_unknown (category : string) :
  ~ In category known_labels -> get_recommendations category = [].
Proof.
  intros Hnot. unfold get_recommendations, recommendations, dict_literal.
  cbn [foldl fst snd].
  rewrite !lookup_insert_ne, lookup_empty; [reflexivity | ..];
    intros <-; apply Hnot; cbn; tauto.
Qed.

Lemma get_recommendations_length (c : AqiCategory) :
  length (get_recommendations (label c)) = 3.
Proof. destruct c; vm_compute; reflexivity. Qed.

(** C4. For each of the six labels [get_recommendations] returns a list
    of exactly three recommendations, hence a non-empty one, and
    [get_aqi_category] returns the label together with one CSS class (the
    severity tag) and one description of a single line. *)
Theorem every_category_has_an_advisory (c : AqiCategory) :
  length (get_recommendations (label c)) = 3 /\
  get_recommendations (label c) <> [] /\
  exists css_class description : string,
    css_class <> EmptyString /\
    description <> EmptyString /\
    one_line description = true /\
    (exists v : pyfloat, get_aqi_category v = (label c, css_class, description)) /\
    (forall v : pyfloat, label_of (get_aqi_category v) = label c ->
       get_aqi_category v = (label c, css_class, description)).
Proof.
  split; [apply get_recommendations_length |].
  split.
  { intros H. pose proof (get_recommendations_length c) as L.
    rewrite H in L. discriminate. }
  exists (css_class_of (get_aqi_category (lit (match c with
            | Good => 0 | Moderate => 100 | UnhealthyForSensitiveGroups => 150
            | Unhealthy => 200 | VeryUnhealthy => 300 | Hazardous => 301 end)))),
         (description_of (get_aqi_category (lit (match c with
            | Good => 0 | Moderate => 100 | UnhealthyForSensitiveGroups => 150
            | Unhealthy => 200 | VeryUnhealthy => 300 | Hazardous => 301 end)))).
  split; [destruct c; discriminate |].
  split; [destruct c; discriminate |].
  split; [destruct c; vm_compute; reflexivity |].
  split.
  - exists (lit (match c with
            | Good => 0 | Moderate => 100 | UnhealthyForSensitiveGroups => 150
            | Unhealthy => 200 | VeryUnhealthy => 300 | Hazardous => 301 end)).
    destruct c; reflexivity.
  - intros v. unfold get_aqi_category.
    run_tests v; destruct c; cbn; intros H; try discriminate H; reflexivity.
Qed.

(** C9. For a category that is none of the six labels,
    [get_recommendations] returns the empty list and does not fail. *)
Theorem get_recommendations_unknown_category (category : string) :
  ~ In category known_labels -> get_recommendations category = [].
Proof. exact (get_recommendations_unknown category). Qed.

Lemma get_recommendations_unknown_category_witness :
  get_recommendations "good" = [] /\ get_recommendations "Severe" = [].
Proof.
  split; apply get_recommendations_unknown_category; cbn;
    intros H; repeat destruct H as [H | H]; try discriminate H; exact H.
Defined.

Lemma get_aqi_category_same (v1 v2 : pyfloat) :
  PyFloat.same v1 v2 -> get_aqi_category v1 = get_aqi_category v2.
Proof.
  intros Hsame.
  assert (Hle : forall z, (v1 <=? lit z)%py = (v2 <=? lit z)%py).
  { intros z. destruct v1 as [a| | |], v2 as [b| | |]; cbn in *;
      try contradiction; try reflexivity.
    destruct (Qle_bool a (inject_Z z)) eqn:Ea, (Qle_bool b (inject_Z z)) eqn:Eb;
      try reflexivity; exfalso.
    - apply Qle_bool_iff in Ea. rewrite Hsame in Ea.
      apply Qle_bool_iff in Ea. congruence.
    - apply Qle_bool_iff in Eb. rewrite <- Hsame in Eb.
      apply Qle_bool_iff in Eb. congruence. }
  unfold get_aqi_category. rewrite !Hle. reflexivity.
Qed.

(** ** Running computations *)

Lemma run_bind {A B} (m : M A) (k : A -> M B) (g : globals) :
  (m ≫= k) g =
    match m g with
    | (t, g', inl e) => (t, g', inl e)
    | (t, g', inr a) => let '(t', g'', r) := k a g' in ((t ++ t')%list, g'', r)
    end.
Proof. reflexivity. Qed.

Lemma steady_show (e : element) : steady (show e).
Proof. intros g. reflexivity. Qed.

Lemma steady_ret : steady (mret tt).
Proof. intros g. reflexivity. Qed.

Lemma steady_then (m k : M unit) : steady m -> steady k -> steady (m ;; k).
Proof.
  intros Hm Hk g. rewrite run_bind, (Hm g), (Hk g). reflexivity.
Qed.

(** After a steady computation the next one runs on the same globals. *)
Lemma run_steady_then {B} (m : M unit) (k : M B) (g : globals) :
  steady m ->
  (m ;; k) g = ((trace_of (m g) ++ trace_of (k g))%list, globals_of (k g), result_of (k g)).
Proof.
  intros Hm. rewrite run_bind, (Hm g).
  destruct (k g) as [[t' g'] r]. reflexivity.
Qed.

Lemma for_each_show {A} (xs : list A) (h : A -> element) (g : globals) :
  for_each xs (fun x => show (h x)) g = (map (fun x => Show (h x)) xs, g, inr tt).
Proof.
  induction xs as [| x xs IH]; [reflexivity |].
  cbn [for_each]. rewrite run_bind. cbn. rewrite IH. reflexivity.
Qed.

Lemma steady_main_inputs : steady main_inputs.
Proof. intros g. reflexivity. Qed.

Lemma steady_main_analysis (f : form) : steady (main_analysis f).
Proof.
  intros g. unfold main_analysis.
  destruct (pm25 f >? lit 35)%py, (pm25 f >? lit 12)%py,
    (pm10 f >? lit 100)%py, (pm10 f >? lit 45)%py; reflexivity.
Qed.

(** Scoring leaves the globals alone and makes each call at most once. *)
Lemma main_scoring_run (f : form) (g : globals) :
  globals_of (main_scoring f g) = g /\
  scoring_trace f (trace_of (main_scoring f g)).
Proof.
  unfold main_scoring, call_transform, call_predict. run_M.
  destruct (scaler g) as [sc |]; run_M; [| split; [reflexivity | constructor]].
  destruct (transform sc (input_data f)) as [e | y]; run_M;
    [split; [reflexivity | constructor] |].
  destruct (model g) as [md |]; run_M; [| split; [reflexivity | constructor]].
  destruct (predict md y) as [e | [| p ps]]; run_M; split;
    try reflexivity; constructor.
Qed.

(** Rendering shows the advisory of the prediction and calls nothing. *)
Lemma main_render_run (f : form) (p : pyfloat) (g : globals) :
  main_render f p g = (trace_of (main_render f p g), g, inr tt) /\
  advisory_shown (trace_of (main_render f p g)) = advisory p /\
  List.filter is_call (trace_of (main_render f p g)) = [].
Proof.
  unfold main_render, advisory, label_of, css_class_of, description_of.
  destruct (get_aqi_category p) as [[category css_class] description].
  cbn [fst snd].
  repeat first [ rewrite run_bind | rewrite for_each_show
               | progress cbn -[get_recommendations for_each] ].
  split; [reflexivity |]. unfold advisory_shown, trace_of. cbn [fst snd].
  rewrite !List.filter_app. cbn -[get_recommendations].
  rewrite app_nil_r.
  split.
  - f_equal. induction (get_recommendations category); cbn; congruence.
  - induction (get_recommendations category); cbn; congruence.
Qed.

(** What the prediction block of [main] does, case by case. *)
Lemma main_prediction_run (f : form) (g : globals) :
  main_prediction f g =
    if submitted f then
      match model g with
      | None => ([Show (st_error model_not_loaded)], g, inr tt)
      | Some _ =>
          match result_of (main_scoring f g) with
          | inl e =>
              ((trace_of (main_scoring f g)
                ++ [Show (st_error (prediction_error e))])%list, g, inr tt)
          | inr p =>
              ((trace_of (main_scoring f g)
                ++ trace_of (main_render f p g))%list, g, inr tt)
          end
      end
    else ([], g, inr tt).
Proof.
  unfold main_prediction. rewrite run_bind. unfold read_model. cbn [fst snd app].
  destruct (submitted f); [| destruct (model g); reflexivity].
  destruct (model g) as [md |]; [| reflexivity].
  cbn [andb is_not_None is_None negb].
  unfold try_except, main_try. rewrite run_bind.
  destruct (main_scoring_run f g) as [Hg _].
  destruct (main_scoring f g) as [[t g'] r].
  unfold globals_of, trace_of, result_of in *. cbn [fst snd] in *. subst g'.
  destruct r as [e | p]; [reflexivity |].
  destruct (main_render_run f p g) as [-> _]. reflexivity.
Qed.

Lemma steady_main_prediction (f : form) : steady (main_prediction f).
Proof.
  intros g. rewrite main_prediction_run.
  destruct (submitted f); [| reflexivity].
  destruct (model g); [| reflexivity].
  destruct (result_of (main_scoring f g)); reflexivity.
Qed.

(** [main] returns, leaves the globals as they were, and its trace is the
    traces of its four parts one after the other. *)
Lemma main_run (f : form) (g : globals) :
  main f g =
    ((trace_of (main_inputs g) ++ trace_of (main_analysis f g)
      ++ trace_of (main_prediction f g) ++ [Show st_about])%list, g, inr tt).
Proof.
  unfold main.
  rewrite (run_steady_then _ _ g steady_main_inputs).
  rewrite (run_steady_then _ _ g (steady_main_analysis f)).
  rewrite (run_steady_then _ _ g (steady_main_prediction f)).
  reflexivity.
Qed.

Lemma serve_run (later : list form) (g : globals) :
  serve later g = (map (fun f => (trace_of (main f g), inr tt)) later, g).
Proof.
  induction later as [| f later IH]; [reflexivity |].
  cbn [serve map]. rewrite main_run, IH. reflexivity.
Qed.

Lemma filter_scoring_trace (f : form) (t : list effect) :
  scoring_trace f t ->
  List.filter is_call t = t /\ advisory_shown t = [] /\
  count_transform t <= 1 /\ count_predict t <= 1.
Proof. intros []; cbn; repeat split; lia. Qed.

Lemma count_transform_calls (t : list effect) :
  count_transform t = count_transform (List.filter is_call t).
Proof.
  unfold count_transform.
  induction t as [| [] t IH]; cbn; congruence.
Qed.

Lemma count_predict_calls (t : list effect) :
  count_predict t = count_predict (List.filter is_call t).
Proof.
  unfold count_predict.
  induction t as [| [] t IH]; cbn; congruence.
Qed.

Lemma main_analysis_shows (f : form) (g : globals) :
  List.filter is_call (trace_of (main_analysis f g)) = [] /\
  advisory_shown (trace_of (main_analysis f g)) = [].
Proof.
  unfold main_analysis.
  destruct (pm25 f >? lit 35)%py, (pm25 f >? lit 12)%py,
    (pm10 f >? lit 100)%py, (pm10 f >? lit 45)%py; split; reflexivity.
Qed.

(** The calls of a run of [main] are those of scoring, when it is reached. *)
Lemma main_calls (f : form) (g : globals) :
  List.filter is_call (trace_of (main f g)) =
    if submitted f && is_not_None (model g) then trace_of (main_scoring f g) else [].
Proof.
  rewrite main_run. unfold trace_of at 1. cbn [fst].
  rewrite !List.filter_app.
  destruct (main_analysis_shows f g) as [-> _].
  rewrite main_prediction_run.
  destruct (main_scoring_run f g) as [_ Hs].
  apply filter_scoring_trace in Hs as (Hc & _).
  destruct (submitted f); [| reflexivity].
  destruct (model g) as [md |]; [| reflexivity].
  cbn [andb is_not_None is_None negb].
  destruct (result_of (main_scoring f g)) as [e | p];
    unfold trace_of at 2; cbn [fst]; rewrite List.filter_app, Hc.
  - cbn. rewrite !app_nil_r. reflexivity.
  - destruct (main_render_run f p g) as (_ & _ & ->). cbn.
    rewrite !app_nil_r. reflexivity.
Qed.

Lemma advisory_shown_app (t1 t2 : list effect) :
  advisory_shown (t1 ++ t2) = (advisory_shown t1 ++ advisory_shown t2)%list.
Proof. apply List.filter_app. Qed.

(** The advisory a run of [main] shows. *)
Lemma main_advisory (f : form) (g : globals) :
  advisory_shown (trace_of (main f g)) =
    if submitted f && is_not_None (model g) then
      match result_of (main_scoring f g) with
      | inl _ => []
      | inr p => advisory p
      end
    else [].
Proof.
  rewrite main_run. unfold trace_of at 1. cbn [fst].
  rewrite !advisory_shown_app.
  destruct (main_analysis_shows f g) as [_ ->].
  rewrite main_prediction_run.
  destruct (main_scoring_run f g) as [_ Hs].
  apply filter_scoring_trace in Hs as (_ & Ha & _).
  destruct (submitted f); [| reflexivity].
  destruct (model g) as [md |]; [| reflexivity].
  cbn [andb is_not_None is_None negb].
  destruct (result_of (main_scoring f g)) as [e | p];
    unfold trace_of at 2; cbn [fst]; rewrite advisory_shown_app, Ha.
  - reflexivity.
  - destruct (main_render_run f p g) as (_ & -> & _). cbn.
    rewrite !app_nil_r. reflexivity.
Qed.

(** ** Loading the artifacts *)

Lemma load_model_unreadable (fs : filesystem) (g : globals) :
  unreadable (model_pkl fs) || unreadable (scaler_pkl fs) = true ->
  exists opened : list effect,
    load_model fs g =
      ((opened ++ [Show (st_error model_files_not_found)])%list, g, inr (None, None)) /\
    List.filter is_call opened = [].
Proof.
  unfold load_model, try_except, unpickle. intros H.
  destruct (model_pkl fs) as [e | md].
  - exists [Open "model.pkl"]. split; reflexivity.
  - destruct (scaler_pkl fs) as [e | sc]; [| discriminate H].
    exists [Open "model.pkl"; Open "scaler.pkl"]. split; reflexivity.
Qed.

Lemma load_model_readable (fs : filesystem) (g : globals) (md : Model) (sc : Scaler) :
  model_pkl fs = inr md -> scaler_pkl fs = inr sc ->
  load_model fs g = ([Open "model.pkl"; Open "scaler.pkl"], g, inr (Some md, Some sc)).
Proof.
  unfold load_model, try_except, unpickle. intros -> ->. reflexivity.
Qed.

(** With a file missing the script runs [main] without a model. *)
Lemma script_unreadable (fs : filesystem) (f : form) (g0 : globals) :
  unreadable (model_pkl fs) || unreadable (scaler_pkl fs) = true ->
  script fs f g0 =
    ((trace_of (load_model fs g0) ++ trace_of (main f unset))%list, unset, inr tt).
Proof.
  intros H. destruct (load_model_unreadable fs g0 H) as (opened & Hl & _).
  unfold script. rewrite run_bind, Hl. cbn [fst snd].
  rewrite run_bind. unfold assign_globals at 1. cbn [fst snd app].
  fold unset. rewrite main_run. unfold trace_of. cbn [fst snd].
  reflexivity.
Qed.

(** ** The two errors *)

(** C6. When [model.pkl] or [scaler.pkl] is absent or unreadable,
    [load_model] reports it and returns no model; the script then goes on
    without crashing and never calls the artifacts; and whenever the model
    is [None], a submitted prediction only gets the error message that the
    model is not loaded. *)
Theorem model_unavailable_is_reported (fs : filesystem) (f : form) (g0 : globals) :
  unreadable (model_pkl fs) || unreadable (scaler_pkl fs) = true ->
  result_of (load_model fs g0) = inr (None, None) /\
  In (Show (st_error model_files_not_found)) (trace_of (load_model fs g0)) /\
  model (globals_of (script fs f g0)) = None /\
  crashes (script fs f g0) = false /\
  List.filter is_call (trace_of (script fs f g0)) = [] /\
  (submitted f = true ->
     In (Show (st_error model_not_loaded)) (trace_of (script fs f g0))) /\
  (forall g : globals, model g = None -> submitted f = true ->
     main_prediction f g = ([Show (st_error model_not_loaded)], g, inr tt) /\
     crashes (main f g) = false /\
     List.filter is_call (trace_of (main f g)) = []).
Proof.
  intros H.
  destruct (load_model_unreadable fs g0 H) as (opened & Hl & Hopened).
  rewrite (script_unreadable fs f g0 H), Hl.
  unfold result_of, trace_of, globals_of, crashes. cbn [fst snd].
  split; [reflexivity |].
  split; [apply in_or_app; right; left; reflexivity |].
  split; [reflexivity |].
  split; [reflexivity |].
  split.
  { rewrite !List.filter_app, Hopened. cbn [List.filter is_call negb app].
    pose proof (main_calls f unset) as Hc. unfold trace_of in Hc. rewrite Hc.
    cbn. rewrite andb_false_r. reflexivity. }
  split.
  { intros Hs. apply in_or_app; right.
    rewrite main_run. cbn [fst]. rewrite main_prediction_run, Hs.
    unfold trace_of. cbn [fst snd unset model].
    apply in_or_app; right. apply in_or_app; right. left. reflexivity. }
  intros g Hg Hs. split; [| split].
  - rewrite main_prediction_run, Hs, Hg. reflexivity.
  - rewrite main_run. reflexivity.
  - pose proof (main_calls f g) as Hc. unfold trace_of in Hc. rewrite Hc, Hg, Hs.
    reflexivity.
Qed.

Lemma model_unavailable_is_reported_witness :
  crashes (script no_files default_form unset) = false /\
  In (Show (st_error model_not_loaded))
     (trace_of (script no_files default_form unset)).
Proof.
  pose proof (model_unavailable_is_reported no_files default_form unset) as H.
  split; [apply H | apply H]; reflexivity.
Defined.

(** C7. When scoring raises on a submitted form, the exception is caught:
    [main] shows the prediction error with the text of the exception right
    after the calls scoring made, shows no advisory, returns without
    crashing, calls [transform] and [predict] at most once each, and leaves
    the globals as they were, so that the forms submitted afterwards are
    served as if this one had never been. *)
Theorem scoring_failure_is_reported (f : form) (g : globals) (e : exn) :
  submitted f = true ->
  is_not_None (model g) = true ->
  result_of (main_scoring f g) = inl e ->
  main_prediction f g =
    ((trace_of (main_scoring f g) ++ [Show (st_error (prediction_error e))])%list,
     g, inr tt) /\
  crashes (main f g) = false /\
  advisory_shown (trace_of (main f g)) = [] /\
  count_transform (trace_of (main f g)) <= 1 /\
  count_predict (trace_of (main f g)) <= 1 /\
  globals_of (main f g) = g /\
  forall later : list form,
    serve (f :: later) g =
      ((trace_of (main f g), inr tt) :: (serve later g).1, (serve later g).2).
Proof.
  intros Hs Hm He.
  split.
  { rewrite main_prediction_run, Hs, He.
    destruct (model g); [reflexivity | discriminate Hm]. }
  split; [rewrite main_run; reflexivity |].
  split; [rewrite main_advisory, Hs, Hm, He; reflexivity |].
  destruct (main_scoring_run f g) as [_ Ht].
  apply filter_scoring_trace in Ht as (_ & _ & Hct & Hcp).
  split; [rewrite count_transform_calls, main_calls, Hs, Hm; exact Hct |].
  split; [rewrite count_predict_calls, main_calls, Hs, Hm; exact Hcp |].
  split; [rewrite main_run; reflexivity |].
  intros later. rewrite !serve_run. reflexivity.
Qed.

Lemma scoring_failure_is_reported_witness :
  main_prediction default_form (loaded failing_model) =
    ([Call_transform (input_data default_form);
      Call_predict (input_data default_form);
      Show (st_error [Text "Prediction error: "; Str "Input contains NaN."])],
     loaded failing_model, inr tt).
Proof.
  apply (scoring_failure_is_reported default_form (loaded failing_model)
           (Exception "Input contains NaN.")); reflexivity.
Defined.

(** C5. Both functions are functions of their argument alone: floats that
    are the same number get the same tuple, categories that compare equal
    get the same list, and the advisory a run of [main] shows is the one the
    two functions give for the prediction, whatever the globals and the
    form are. *)
Theorem advisory_is_deterministic :
  (forall v1 v2 : pyfloat, PyFloat.same v1 v2 ->
     get_aqi_category v1 = get_aqi_category v2) /\
  (forall c1 c2 : string, String.eqb c1 c2 = true ->
     get_recommendations c1 = get_recommendations c2) /\
  (forall (f : form) (g : globals) (p : pyfloat),
     submitted f = true -> is_not_None (model g) = true ->
     result_of (main_scoring f g) = inr p ->
     advisory_shown (trace_of (main f g)) = advisory p).
Proof.
  split; [exact get_aqi_category_same |]. split.
  - intros c1 c2 H. apply String.eqb_eq in H. subst. reflexivity.
  - intros f g p Hs Hm Hp. rewrite main_advisory, Hs, Hm, Hp. reflexivity.
Qed.

Lemma advisory_is_deterministic_witness :
  get_aqi_category (Finite (1 # 2)) = get_aqi_category (Finite (2 # 4)) /\
  advisory_shown (trace_of (main default_form (loaded (constant_model (Finite 42)))))
  = advisory (Finite 42).
Proof.
  split.
  - apply (proj1 advisory_is_deterministic). reflexivity.
  - apply (proj2 (proj2 advisory_is_deterministic)); reflexivity.
Defined.

(** * Further properties of the code *)

(** ** The advisory engine, composed *)

Lemma get_recommendations_table (c : AqiCategory) :
  get_recommendations (label c) =
    match c with
    | Good =>
        ["✅ Perfect for outdoor activities and exercise";
         "✅ No restrictions needed";
         "✅ Great day for children to play outside"]
    | Moderate =>
        ["⚠️ Generally acceptable for most people";
         "⚠️ Sensitive individuals should reduce prolonged exertion";
         "💧 Stay hydrated if exercising outdoors"]
    | UnhealthyForSensitiveGroups =>
        ["🚫 Sensitive groups should reduce outdoor activities";
         "👵 Older adults and children should limit exertion";
         "🏠 Consider moving activities indoors"]
    | Unhealthy =>
        ["🚨 Everyone should reduce outdoor activities";
         "💪 Avoid strenuous exercise outdoors";
         "😷 Wear masks if going outside"]
    | VeryUnhealthy =>
        ["🆘 Avoid all outdoor activities";
         "🏠 Stay indoors with windows closed";
         "💨 Use air purifiers"]
    | Hazardous =>
        ["🔥 HEALTH EMERGENCY - Stay indoors";
         "🆘 Cancel all outdoor activities";
         "🏥 Seek medical help if symptoms appear"]
    end.
Proof. destruct c; vm_compute; reflexivity. Qed.

Lemma known_labels_label (s : string) :
  In s known_labels <-> exists c : AqiCategory, s = label c.
Proof.
  split.
  - cbn. intros [H | [H | [H | [H | [H | [H | []]]]]]]; subst;
      [exists Good | exists Moderate | exists UnhealthyForSensitiveGroups
      | exists Unhealthy | exists VeryUnhealthy | exists Hazardous]; reflexivity.
  - intros [c ->]. destruct c; cbn; tauto.
Qed.

(** X1. Whatever float [get_aqi_category] is given, NaN and negative
    values included, the label it returns is one of the six keys of the
    recommendations table, so the recommendations looked up for it are
    exactly three: the empty default of [get_recommendations] is never what
    [main] gets. *)
Theorem get_aqi_category_label_has_recommendations (v : pyfloat) :
  In (label_of (get_aqi_category v)) known_labels /\
  length (get_recommendations (label_of (get_aqi_category v))) = 3.
Proof.
  rewrite get_aqi_category_classify_spec. split.
  - apply known_labels_label. eexists. reflexivity.
  - apply get_recommendations_length.
Qed.

(** X2. [get_recommendations] returns a non-empty list exactly for the
    six labels: the lookup is by exact string. *)
Theorem get_recommendations_nonempty_iff (category : string) :
  get_recommendations category <> [] <-> In category known_labels.
Proof.
  split.
  - intros Hne. destruct (in_dec Strings.String.string_dec category known_labels) as [Hin | Hnot].
    + exact Hin.
    + exfalso. apply Hne. apply get_recommendations_unknown. exact Hnot.
  - intros Hin. apply known_labels_label in Hin as [c ->].
    intros H. pose proof (get_recommendations_length c) as L.
    rewrite H in L. discriminate L.
Qed.

(** X3. No recommendation is listed under two categories: a
    recommendation that is shown tells which category it came from. *)
Theorem recommendation_identifies_category (c1 c2 : AqiCategory) (rec : string) :
  In rec (get_recommendations (label c1)) ->
  In rec (get_recommendations (label c2)) ->
  c1 = c2.
Proof.
  rewrite !get_recommendations_table.
  destruct c1, c2; try reflexivity; cbn; intros H1 H2; exfalso;
    repeat (destruct H1 as [H1 | H1]; [| try contradiction]);
    subst; repeat (destruct H2 as [H2 | H2]; try discriminate H2; try contradiction).
Qed.

Lemma recommendation_identifies_category_witness :
  UnhealthyForSensitiveGroups = UnhealthyForSensitiveGroups.
Proof.
  apply (recommendation_identifies_category _ _ "🏠 Consider moving activities indoors");
    rewrite get_recommendations_table; cbn; tauto.
Defined.

(** X4. The three components of the tuple go together: two values get the
    same CSS class exactly when they get the same label, and exactly when
    they get the same description. *)
Theorem get_aqi_category_components_agree (v1 v2 : pyfloat) :
  (css_class_of (get_aqi_category v1) = css_class_of (get_aqi_category v2) <->
   label_of (get_aqi_category v1) = label_of (get_aqi_category v2)) /\
  (description_of (get_aqi_category v1) = description_of (get_aqi_category v2) <->
   label_of (get_aqi_category v1) = label_of (get_aqi_category v2)).
Proof.
  unfold get_aqi_category.
  run_tests v1; run_tests v2; cbn; split; split; intros H;
    try reflexivity; discriminate H.
Qed.

(** X5. Every CSS class [get_aqi_category] can return has a rule in the
    style sheet the script writes, and so has the class of the result box;
    the rule gives a background and a text colour that differ; and two
    values whose classes get the same rule have the same label. *)
Theorem result_box_is_styled :
  rule_of "prediction-result" <> None /\
  (forall v : pyfloat,
     exists (decls : list (string * string)) (bg fg : string),
       rule_of (css_class_of (get_aqi_category v)) = Some decls /\
       declared "background" decls = Some bg /\
       declared "color" decls = Some fg /\
       bg <> fg) /\
  (forall v1 v2 : pyfloat,
     rule_of (css_class_of (get_aqi_category v1)) =
     rule_of (css_class_of (get_aqi_category v2)) ->
     label_of (get_aqi_category v1) = label_of (get_aqi_category v2)).
Proof.
  split; [discriminate |]. split.
  - intros v. unfold get_aqi_category.
    run_tests v; cbn; do 3 eexists; repeat split; discriminate.
  - intros v1 v2. unfold get_aqi_category.
    run_tests v1; run_tests v2; cbn; intros H; try reflexivity; discriminate H.
Qed.

(** ** Loading, once more *)

Lemma load_model_run (fs : filesystem) (g : globals) :
  load_model fs g =
    match model_pkl fs with
    | inl _ =>
        ([Open "model.pkl"; Show (st_error model_files_not_found)], g,
         inr (None, None))
    | inr md =>
        match scaler_pkl fs with
        | inl _ =>
            ([Open "model.pkl"; Open "scaler.pkl";
              Show (st_error model_files_not_found)], g, inr (None, None))
        | inr sc =>
            ([Open "model.pkl"; Open "scaler.pkl"], g, inr (Some md, Some sc))
        end
    end.
Proof.
  unfold load_model, try_except, unpickle.
  destruct (model_pkl fs) as [e | md]; [reflexivity |].
  destruct (scaler_pkl fs) as [e | sc]; reflexivity.
Qed.

Lemma script_run (fs : filesystem) (f : form) (g0 : globals) :
  script fs f g0 =
    match result_of (load_model fs g0) with
    | inl e => (trace_of (load_model fs g0), g0, inl e)
    | inr r =>
        ((trace_of (load_model fs g0)
          ++ trace_of (main f {| model := r.1; scaler := r.2 |}))%list,
         {| model := r.1; scaler := r.2 |}, inr tt)
    end.
Proof.
  unfold script. rewrite run_bind, load_model_run.
  destruct (model_pkl fs) as [e | md]; [| destruct (scaler_pkl fs) as [e | sc]];
    unfold result_of, trace_of; cbn [fst snd];
    rewrite run_bind; unfold assign_globals at 1; cbn [fst snd app];
    rewrite main_run; reflexivity.
Qed.


(** X7. When [model.pkl] cannot be loaded, [scaler.pkl] is not opened at
    all, and the error shown is the fixed message: the exception that was
    raised is not part of it. *)
Theorem load_model_stops_at_model_pkl (fs : filesystem) (g : globals) :
  unreadable (model_pkl fs) = true ->
  trace_of (load_model fs g) =
    [Open "model.pkl"; Show (st_error model_files_not_found)].
Proof.
  intros H. rewrite load_model_run.
  destruct (model_pkl fs) as [e | md]; [reflexivity | discriminate H].
Qed.

Lemma load_model_stops_at_model_pkl_witness :
  trace_of (load_model no_files unset) =
    [Open "model.pkl"; Show (st_error model_files_not_found)].
Proof. apply load_model_stops_at_model_pkl. reflexivity. Defined.


(** X9. What the script does is decided by the two files and the form:
    the values the globals had before it ran play no part. *)
Theorem script_ignores_previous_globals (fs : filesystem) (f : form)
    (g0 g1 : globals) :
  script fs f g0 = script fs f g1.
Proof.
  rewrite !script_run, !load_model_run.
  destruct (model_pkl fs) as [e | md]; [| destruct (scaler_pkl fs) as [e | sc]];
    reflexivity.
Qed.



(** ** The prediction block, path by path *)

Lemma main_scoring_eq (f : form) (g : globals) :
  main_scoring f g =
    match scaler g with
    | None => ([], g, inl (none_has_no_attribute "transform"))
    | Some sc =>
        match transform sc (input_data f) with
        | inl e => ([Call_transform (input_data f)], g, inl e)
        | inr y =>
            match model g with
            | None =>
                ([Call_transform (input_data f)], g,
                 inl (none_has_no_attribute "predict"))
            | Some md =>
                match predict md y with
                | inl e =>
                    ([Call_transform (input_data f); Call_predict y], g, inl e)
                | inr [] =>
                    ([Call_transform (input_data f); Call_predict y], g,
                     inl (Exception "index 0 is out of bounds for axis 0 with size 0"))
                | inr (p :: _) =>
                    ([Call_transform (input_data f); Call_predict y], g, inr p)
                end
            end
        end
    end.
Proof.
  unfold main_scoring, call_transform, call_predict. run_M.
  destruct (scaler g) as [sc |]; run_M; [| reflexivity].
  destruct (transform sc (input_data f)) as [e | y]; run_M; [reflexivity |].
  destruct (model g) as [md |]; run_M; [| reflexivity].
  destruct (predict md y) as [e | [| p ps]]; reflexivity.
Qed.

Lemma main_render_trace (f : form) (p : pyfloat) (g : globals) :
  trace_of (main_render f p g) =
    (Show (st_result (css_class_of (get_aqi_category p)) p
             (label_of (get_aqi_category p))
             (description_of (get_aqi_category p)))
     :: Show (st_subheader "💡 Health Recommendations")
     :: map (fun rec => Show (bullet rec))
          (get_recommendations (label_of (get_aqi_category p)))
     ++ [Show (st_expander "📋 Input Summary");
         Show (st_metric "PM2.5" [Num (pm25 f); Text " µg/m³"]);
         Show (st_metric "PM10" [Num (pm10 f); Text " µg/m³"]);
         Show (st_metric "NO₂" [Num (no2 f); Text " µg/m³"]);
         Show (st_metric "CO" [Num (co f); Text " mg/m³"]);
         Show (st_metric "O₃" [Num (o3 f); Text " µg/m³"])])%list.
Proof.
  unfold main_render, label_of, css_class_of, description_of.
  destruct (get_aqi_category p) as [[category css_class] description].
  cbn [fst snd].
  repeat first [ rewrite run_bind | rewrite for_each_show
               | progress cbn -[get_recommendations for_each] ].
  reflexivity.
Qed.

Lemma errors_shown_app (t1 t2 : list effect) :
  errors_shown (t1 ++ t2) = (errors_shown t1 ++ errors_shown t2)%list.
Proof. apply List.filter_app. Qed.

Lemma errors_shown_bullets (recs : list string) :
  errors_shown (map (fun rec => Show (bullet rec)) recs) = [].
Proof. induction recs as [| r recs IH]; [reflexivity | exact IH]. Qed.

Lemma bullets_shown_bullets (recs : list string) :
  bullets_shown (map (fun rec => Show (bullet rec)) recs) = recs.
Proof.
  induction recs as [| r recs IH]; [reflexivity |].
  cbn. unfold bullets_shown in IH. rewrite IH. reflexivity.
Qed.

Lemma bullets_shown_app (t1 t2 : list effect) :
  bullets_shown (t1 ++ t2) = (bullets_shown t1 ++ bullets_shown t2)%list.
Proof. apply omap_app. Qed.

Lemma main_render_errors (f : form) (p : pyfloat) (g : globals) :
  errors_shown (trace_of (main_render f p g)) = [].
Proof.
  rewrite main_render_trace.
  change (errors_shown (?a :: ?b :: ?t)) with (errors_shown t).
  rewrite errors_shown_app, errors_shown_bullets. reflexivity.
Qed.

(** The errors the prediction block shows. *)
Lemma main_prediction_errors (f : form) (g : globals) :
  errors_shown (trace_of (main_prediction f g)) =
    if submitted f then
      match model g with
      | None => [Show (st_error model_not_loaded)]
      | Some _ =>
          match result_of (main_scoring f g) with
          | inl e => [Show (st_error (prediction_error e))]
          | inr _ => []
          end
      end
    else [].
Proof.
  rewrite main_prediction_run.
  destruct (submitted f); [| reflexivity].
  destruct (model g) as [md |]; [| reflexivity].
  destruct (main_scoring_run f g) as [_ Hs].
  assert (He : errors_shown (trace_of (main_scoring f g)) = [])
    by (destruct Hs; reflexivity).
  destruct (result_of (main_scoring f g)) as [e | p];
    unfold trace_of at 1; cbn [fst]; rewrite errors_shown_app, He.
  - reflexivity.
  - rewrite main_render_errors. reflexivity.
Qed.

(** The analysis shows its heading and one element per pollutant; when an
    element is an error, its message has three pieces. *)
Lemma main_analysis_trace (f : form) (g : globals) :
  exists a25 a10 : element,
    trace_of (main_analysis f g) =
      [Show (st_subheader "🎯 Real-time Analysis"); Show a25; Show a10] /\
    forall m : message,
      In (Show (st_error m)) (trace_of (main_analysis f g)) -> length m = 3.
Proof.
  unfold main_analysis.
  destruct (pm25 f >? lit 35)%py, (pm25 f >? lit 12)%py,
    (pm10 f >? lit 100)%py, (pm10 f >? lit 45)%py;
    do 2 eexists; (split; [reflexivity |]);
    intros m; cbn; intros H;
    repeat (destruct H as [H | H]; [try discriminate H |]); try contradiction;
    injection H as <-; reflexivity.
Qed.

Lemma in_errors_shown (t : list effect) (m : message) :
  In (Show (st_error m)) t <-> In (Show (st_error m)) (errors_shown t).
Proof.
  unfold errors_shown. rewrite List.filter_In. cbn. tauto.
Qed.

(** An error of a run of [main] with a message that has not three pieces
    comes from the prediction block. *)
Lemma main_error_from_prediction (f : form) (g : globals) (m : message) :
  length m <> 3 ->
  In (Show (st_error m)) (trace_of (main f g)) <->
  In (Show (st_error m)) (errors_shown (trace_of (main_prediction f g))).
Proof.
  intros Hlen. rewrite main_run. unfold trace_of at 1. cbn [fst].
  rewrite <- in_errors_shown.
  rewrite !in_app_iff. split.
  - intros [H | [H | [H | H]]].
    + cbn in H. repeat (destruct H as [H | H]; [discriminate H |]). contradiction.
    + destruct (main_analysis_trace f g) as (a25 & a10 & _ & Ha).
      exfalso. apply Hlen. apply Ha. exact H.
    + exact H.
    + cbn in H. destruct H as [H | []]. discriminate H.
  - intros H. right. right. left. exact H.
Qed.

(** ** What a run of [main] shows *)

(** X11. [main] returns normally on every form and with any globals,
    leaves the globals as they were, and always shows the same frame: the
    header, the sidebar, the form, the analysis heading with one element
    for PM2.5 and one for PM10, then what the prediction block shows, and
    the About section last, also after a failed prediction. *)
Theorem main_always_returns (f : form) (g : globals) :
  crashes (main f g) = false /\
  globals_of (main f g) = g /\
  exists a25 a10 : element,
    trace_of (main f g) =
      ([Show st_header; Show st_sidebar;
        Show (st_subheader "📊 Enter Pollutant Levels"); Show st_form;
        Show (st_subheader "🎯 Real-time Analysis"); Show a25; Show a10]
       ++ trace_of (main_prediction f g) ++ [Show st_about])%list.
Proof.
  rewrite main_run. split; [reflexivity |]. split; [reflexivity |].
  destruct (main_analysis_trace f g) as (a25 & a10 & Ha & _).
  exists a25, a10. unfold trace_of at 1. cbn [fst]. rewrite Ha. reflexivity.
Qed.

(** X12. The analysis of finite readings: PM2.5 is reported High above
    35, Moderate above 12 and up to 35, Good up to 12; PM10 is reported High
    above 100, Moderate above 45 and up to 100, Good up to 45.  The bounds
    themselves fall in the lower level.  Neither the globals nor the other
    fields of the form matter. *)
Theorem main_analysis_levels (f : form) (g : globals) (a b : Q) :
  pm25 f = Finite a -> pm10 f = Finite b ->
  trace_of (main_analysis f g) =
    [Show (st_subheader "🎯 Real-time Analysis");
     Show (if Qle_bool a 12 then
             st_success [Text "PM2.5: "; Num (Finite a); Text " µg/m³ (Good)"]
           else if Qle_bool a 35 then
             st_warning [Text "PM2.5: "; Num (Finite a); Text " µg/m³ (Moderate)"]
           else
             st_error [Text "PM2.5: "; Num (Finite a); Text " µg/m³ (High)"]);
     Show (if Qle_bool b 45 then
             st_success [Text "PM10: "; Num (Finite b); Text " µg/m³ (Good)"]
           else if Qle_bool b 100 then
             st_warning [Text "PM10: "; Num (Finite b); Text " µg/m³ (Moderate)"]
           else
             st_error [Text "PM10: "; Num (Finite b); Text " µg/m³ (High)"])].
Proof.
  intros Ha Hb. unfold main_analysis. rewrite Ha, Hb. cbn [PyFloat.gt lit PyFloat.of_Z].
  change (inject_Z 35) with 35%Q. change (inject_Z 12) with 12%Q.
  change (inject_Z 100) with 100%Q. change (inject_Z 45) with 45%Q.
  assert (H25 : Qle_bool a 12 = true -> Qle_bool a 35 = true).
  { rewrite !Qle_bool_iff. intros H. lra. }
  assert (H10 : Qle_bool b 45 = true -> Qle_bool b 100 = true).
  { rewrite !Qle_bool_iff. intros H. lra. }
  destruct (Qle_bool a 12), (Qle_bool a 35), (Qle_bool b 45), (Qle_bool b 100);
    try (specialize (H25 eq_refl); discriminate H25);
    try (specialize (H10 eq_refl); discriminate H10);
    reflexivity.
Qed.

Lemma main_analysis_levels_witness :
  trace_of (main_analysis default_form unset) =
    [Show (st_subheader "🎯 Real-time Analysis");
     Show (st_warning [Text "PM2.5: "; Num (Finite 25); Text " µg/m³ (Moderate)"]);
     Show (st_warning [Text "PM10: "; Num (Finite 50); Text " µg/m³ (Moderate)"])].
Proof.
  apply (main_analysis_levels default_form unset 25 50); reflexivity.
Defined.

(** X13. Without a submission the prediction block does nothing, loaded
    model or not: no call reaches the artifacts, no advisory and no
    prediction error is shown. *)
Theorem main_without_submission (f : form) (g : globals) :
  submitted f = false ->
  main_prediction f g = ([], g, inr tt) /\
  List.filter is_call (trace_of (main f g)) = [] /\
  advisory_shown (trace_of (main f g)) = [].
Proof.
  intros Hs. split; [| split].
  - rewrite main_prediction_run, Hs. reflexivity.
  - rewrite main_calls, Hs. reflexivity.
  - rewrite main_advisory, Hs. reflexivity.
Qed.

Lemma main_without_submission_witness :
  List.filter is_call
    (trace_of (main {| pm25 := Finite 25; pm10 := Finite 50; no2 := Finite 20;
                       co := Finite 1; o3 := Finite 60; submitted := false |}
                    (loaded failing_model))) = [].
Proof.
  apply (main_without_submission
           {| pm25 := Finite 25; pm10 := Finite 50; no2 := Finite 20;
              co := Finite 1; o3 := Finite 60; submitted := false |}
           (loaded failing_model)).
  reflexivity.
Defined.

(** X14. A successful prediction: [transform] is called on the row of the
    five readings, [predict] on what [transform] returned, and only the
    first prediction is used.  The block then shows the result box of that
    prediction, the heading, the recommendations of its label, which are
    three, and the input summary with the five readings; it shows no
    error. *)
Theorem main_successful_prediction (f : form) (g : globals) (sc : Scaler)
    (md : Model) (y : ndarray) (p : pyfloat) (others : list pyfloat) :
  submitted f = true ->
  scaler g = Some sc -> model g = Some md ->
  transform sc (input_data f) = inr y ->
  predict md y = inr (p :: others) ->
  trace_of (main_prediction f g) =
    ([Call_transform [[pm25 f; pm10 f; no2 f; co f; o3 f]]; Call_predict y;
      Show (st_result (css_class_of (get_aqi_category p)) p
              (label_of (get_aqi_category p))
              (description_of (get_aqi_category p)));
      Show (st_subheader "💡 Health Recommendations")]
     ++ map (fun rec => Show (bullet rec))
          (get_recommendations (label_of (get_aqi_category p)))
     ++ [Show (st_expander "📋 Input Summary");
         Show (st_metric "PM2.5" [Num (pm25 f); Text " µg/m³"]);
         Show (st_metric "PM10" [Num (pm10 f); Text " µg/m³"]);
         Show (st_metric "NO₂" [Num (no2 f); Text " µg/m³"]);
         Show (st_metric "CO" [Num (co f); Text " mg/m³"]);
         Show (st_metric "O₃" [Num (o3 f); Text " µg/m³"])])%list /\
  length (bullets_shown (trace_of (main_prediction f g))) = 3 /\
  errors_shown (trace_of (main_prediction f g)) = [].
Proof.
  intros Hs Hsc Hmd Ht Hp.
  assert (Hrun : main_scoring f g =
            ([Call_transform (input_data f); Call_predict y], g, inr p))
    by (rewrite main_scoring_eq, Hsc, Ht, Hmd, Hp; reflexivity).
  assert (Htrace : trace_of (main_prediction f g) =
            ([Call_transform (input_data f); Call_predict y]
             ++ trace_of (main_render f p g))%list)
    by (rewrite main_prediction_run, Hs, Hmd, Hrun; reflexivity).
  split; [| split].
  - rewrite Htrace, main_render_trace. reflexivity.
  - rewrite Htrace, main_render_trace.
    change (bullets_shown ([?a; ?b] ++ ?c :: ?d :: ?t)) with (bullets_shown t).
    rewrite bullets_shown_app, bullets_shown_bullets. cbn [bullets_shown omap app].
    rewrite app_nil_r, get_aqi_category_classify_spec.
    apply get_recommendations_length.
  - rewrite main_prediction_errors, Hs, Hmd, Hrun. reflexivity.
Qed.

Lemma main_successful_prediction_witness :
  length (bullets_shown
            (trace_of (main_prediction default_form
                         (loaded (constant_model (Finite 180)))))) = 3.
Proof.
  apply (main_successful_prediction default_form
           (loaded (constant_model (Finite 180))) identity_scaler
           (constant_model (Finite 180)) (input_data default_form)
           (Finite 180) []); reflexivity.
Defined.

(** ** The errors of the prediction block *)

(** X15. A run of [main] shows the error that the model is not loaded
    exactly when a form was submitted while [model] is [None]. *)
Theorem model_not_loaded_iff (f : form) (g : globals) :
  In (Show (st_error model_not_loaded)) (trace_of (main f g)) <->
  submitted f = true /\ model g = None.
Proof.
  rewrite main_error_from_prediction by (cbn; lia).
  rewrite main_prediction_errors.
  destruct (submitted f); [| cbn; split; [tauto | intros [H _]; discriminate H]].
  destruct (model g) as [md |].
  - split; [| intros [_ H]; discriminate H].
    destruct (result_of (main_scoring f g)) as [e | p]; cbn;
      [intros [H | []]; discriminate H | tauto].
  - cbn. tauto.
Qed.

(** X16. A run of [main] shows the prediction error of an exception
    exactly when a form was submitted, [model] is not [None] and scoring
    raised that exception: the message carries the text of the exception
    that was caught and of no other. *)
Theorem prediction_error_iff (f : form) (g : globals) (e : exn) :
  In (Show (st_error (prediction_error e))) (trace_of (main f g)) <->
  submitted f = true /\ is_not_None (model g) = true /\
  result_of (main_scoring f g) = inl e.
Proof.
  rewrite main_error_from_prediction by (cbn; lia).
  rewrite main_prediction_errors.
  destruct (submitted f);
    [| cbn; split; [tauto | intros (H & _); discriminate H]].
  destruct (model g) as [md |];
    [| cbn; split; [intros [H | []]; discriminate H
                   | intros (_ & H & _); discriminate H]].
  destruct (result_of (main_scoring f g)) as [e' | p]; cbn.
  - split.
    + intros [H | []]. injection H as H. destruct e, e'. cbn in H. subst.
      repeat split.
    + intros (_ & _ & H). injection H as ->. left. reflexivity.
  - split; [tauto | intros (_ & _ & H); discriminate H].
Qed.

(** X17. The prediction block shows an advisory, or one error, or
    nothing: never an advisory together with an error, never two errors. *)
Theorem advisory_or_one_error (f : form) (g : globals) :
  (errors_shown (trace_of (main_prediction f g)) = [] \/
   advisory_shown (trace_of (main_prediction f g)) = []) /\
  length (errors_shown (trace_of (main_prediction f g))) <= 1.
Proof.
  rewrite main_prediction_errors, main_prediction_run.
  destruct (submitted f); [| split; [left; reflexivity | cbn; lia]].
  destruct (model g) as [md |]; [| split; [right; reflexivity | cbn; lia]].
  destruct (main_scoring_run f g) as [_ Hs].
  apply filter_scoring_trace in Hs as (_ & Ha & _).
  destruct (result_of (main_scoring f g)) as [e | p].
  - split; [right | cbn; lia].
    unfold trace_of at 1. cbn [fst]. rewrite advisory_shown_app, Ha. reflexivity.
  - split; [left; reflexivity | cbn; lia].
Qed.

(** X18. When [scaler.transform] raises, [model.predict] is never called:
    the block shows the error of that exception right after the one call. *)
Theorem transform_failure_skips_predict (f : form) (g : globals) (sc : Scaler)
    (e : exn) :
  submitted f = true -> is_not_None (model g) = true ->
  scaler g = Some sc -> transform sc (input_data f) = inl e ->
  main_prediction f g =
    ([Call_transform (input_data f); Show (st_error (prediction_error e))],
     g, inr tt) /\
  count_predict (trace_of (main f g)) = 0.
Proof.
  intros Hs Hm Hsc Ht.
  assert (Hrun : main_scoring f g = ([Call_transform (input_data f)], g, inl e))
    by (rewrite main_scoring_eq, Hsc, Ht; reflexivity).
  split.
  - rewrite main_prediction_run, Hs, Hrun.
    destruct (model g); [reflexivity | discriminate Hm].
  - rewrite count_predict_calls, main_calls, Hs, Hm, Hrun. reflexivity.
Qed.

Lemma transform_failure_skips_predict_witness :
  count_predict
    (trace_of (main default_form
       {| model := Some (constant_model (Finite 42));
          scaler := Some {| transform := fun _ => inl (Exception "bad shape") |} |}))
  = 0.
Proof.
  apply (transform_failure_skips_predict default_form
           {| model := Some (constant_model (Finite 42));
              scaler := Some {| transform := fun _ => inl (Exception "bad shape") |} |}
           {| transform := fun _ => inl (Exception "bad shape") |}
           (Exception "bad shape")); reflexivity.
Defined.

(** X19. When [model.predict] returns an empty array, taking its first
    element raises inside the [try]: after the two calls the block shows a
    prediction error and no advisory, and [main] goes on. *)
Theorem empty_prediction_is_reported (f : form) (g : globals) (sc : Scaler)
    (md : Model) (y : ndarray) :
  submitted f = true ->
  scaler g = Some sc -> model g = Some md ->
  transform sc (input_data f) = inr y ->
  predict md y = inr [] ->
  exists e : exn,
    main_prediction f g =
      ([Call_transform (input_data f); Call_predict y;
        Show (st_error (prediction_error e))], g, inr tt) /\
    advisory_shown (trace_of (main f g)) = [].
Proof.
  intros Hs Hsc Hmd Ht Hp.
  exists (Exception "index 0 is out of bounds for axis 0 with size 0").
  assert (Hrun : main_scoring f g =
            ([Call_transform (input_data f); Call_predict y], g,
             inl (Exception "index 0 is out of bounds for axis 0 with size 0")))
    by (rewrite main_scoring_eq, Hsc, Ht, Hmd, Hp; reflexivity).
  split.
  - rewrite main_prediction_run, Hs, Hmd, Hrun. reflexivity.
  - rewrite main_advisory, Hs, Hmd, Hrun. reflexivity.
Qed.

Lemma empty_prediction_is_reported_witness :
  exists e : exn,
    main_prediction default_form (loaded {| predict := fun _ => inr [] |}) =
      ([Call_transform (input_data default_form);
        Call_predict (input_data default_form);
        Show (st_error (prediction_error e))],
       loaded {| predict := fun _ => inr [] |}, inr tt) /\
    advisory_shown
      (trace_of (main default_form (loaded {| predict := fun _ => inr [] |}))) = [].
Proof.
  apply (empty_prediction_is_reported default_form
           (loaded {| predict := fun _ => inr [] |}) identity_scaler
           {| predict := fun _ => inr [] |} (input_data default_form));
    reflexivity.
Defined.

(** X20. [main] tests only [model]: with a model but [scaler] being
    [None], the attribute error of [scaler.transform] is caught by the
    [try] and shown as a prediction error, and neither artifact is called. *)
Theorem missing_scaler_is_reported (f : form) (g : globals) :
  submitted f = true -> is_not_None (model g) = true -> scaler g = None ->
  main_prediction f g =
    ([Show (st_error (prediction_error (none_has_no_attribute "transform")))],
     g, inr tt) /\
  List.filter is_call (trace_of (main f g)) = [].
Proof.
  intros Hs Hm Hsc.
  assert (Hrun : main_scoring f g =
            ([], g, inl (none_has_no_attribute "transform")))
    by (rewrite main_scoring_eq, Hsc; reflexivity).
  split.
  - rewrite main_prediction_run, Hs, Hrun.
    destruct (model g); [reflexivity | discriminate Hm].
  - rewrite main_calls, Hs, Hm, Hrun. reflexivity.
Qed.

Lemma missing_scaler_is_reported_witness :
  List.filter is_call
    (trace_of (main default_form
       {| model := Some (constant_model (Finite 42)); scaler := None |})) = [].
Proof.
  apply (missing_scaler_is_reported default_form
           {| model := Some (constant_model (Finite 42)); scaler := None |});
    reflexivity.
Defined.

(** X21. What a submitted form gets does not depend on the forms served
    before it, whether they succeeded or failed: after any history the
    globals are the initial ones and the last response is the one [main]
    gives on them. *)
Theorem serve_forgets_history (history : list form) (f : form) (g : globals) :
  (serve (history ++ [f]) g).2 = g /\
  length (serve (history ++ [f]) g).1 = S (length history) /\
  last (serve (history ++ [f]) g).1 = Some (trace_of (main f g), inr tt).
Proof.
  rewrite serve_run. cbn [fst snd]. split; [reflexivity |]. split.
  - rewrite length_map, length_app. cbn. lia.
  - rewrite map_app. cbn [map]. apply last_snoc.
Qed.

(** ** The scenarios of the specification, run *)

Example scenario_aqi_0 : label_of (get_aqi_category (lit 0)) = "Good".
Proof. reflexivity. Qed.

Example scenario_aqi_50 : label_of (get_aqi_category (lit 50)) = "Good".
Proof. reflexivity. Qed.

Example scenario_aqi_50_1 : label_of (get_aqi_category (Finite 50.1)) = "Moderate".
Proof. reflexivity. Qed.

Example scenario_aqi_150 :
  get_aqi_category (lit 150) =
    ("Unhealthy for Sensitive Groups", "unhealthy-sensitive",
     "😷 Sensitive groups may be affected").
Proof. reflexivity. Qed.

Example scenario_aqi_301 : label_of (get_aqi_category (lit 301)) = "Hazardous".
Proof. reflexivity. Qed.

Example scenario_specials :
  label_of (get_aqi_category NaN) = "Hazardous" /\
  label_of (get_aqi_category PosInf) = "Hazardous" /\
  label_of (get_aqi_category NegInf) = "Good".
Proof. repeat split. Qed.

Example scenario_recommendations_moderate :
  get_recommendations "Moderate" =
    ["⚠️ Generally acceptable for most people";
     "⚠️ Sensitive individuals should reduce prolonged exertion";
     "💧 Stay hydrated if exercising outdoors"].
Proof. vm_compute. reflexivity. Qed.

Example scenario_model_absent :
  script no_files default_form unset =
    ([Open "model.pkl";
      Show (st_error model_files_not_found);
      Show st_header; Show st_sidebar;
      Show (st_subheader "📊 Enter Pollutant Levels"); Show st_form;
      Show (st_subheader "🎯 Real-time Analysis");
      Show (st_warning [Text "PM2.5: "; Num (Finite 25); Text " µg/m³ (Moderate)"]);
      Show (st_warning [Text "PM10: "; Num (Finite 50); Text " µg/m³ (Moderate)"]);
      Show (st_error model_not_loaded);
      Show st_about],
     unset, inr tt).
Proof. reflexivity. Qed.

Example scenario_prediction_42 :
  trace_of (main_prediction default_form (loaded (constant_model (Finite 42)))) =
    [Call_transform (input_data default_form);
     Call_predict (input_data default_form);
     Show (st_result "good" (Finite 42) "Good" "😊 Air quality is satisfactory");
     Show (st_subheader "💡 Health Recommendations");
     Show (bullet "✅ Perfect for outdoor activities and exercise");
     Show (bullet "✅ No restrictions needed");
     Show (bullet "✅ Great day for children to play outside");
     Show (st_expander "📋 Input Summary");
     Show (st_metric "PM2.5" [Num (Finite 25); Text " µg/m³"]);
     Show (st_metric "PM10" [Num (Finite 50); Text " µg/m³"]);
     Show (st_metric "NO₂" [Num (Finite 20); Text " µg/m³"]);
     Show (st_metric "CO" [Num (Finite 1); Text " mg/m³"]);
     Show (st_metric "O₃" [Num (Finite 60); Text " µg/m³"])].
Proof. vm_compute. reflexivity. Qed.

Example scenario_after_failure :
  (serve [default_form; default_form] (loaded failing_model)).2 = loaded failing_model.
Proof. vm_compute. reflexivity. Qed.
